(** * SEC API tool: routing, forwarding and error wrapping

    A shallow embedding of
    [libs/community/langchain_community/tools/sec_api/tool.py].

    The tool is a thin adapter around an external client, [CustomSECAPI].
    Every method body is a [try] block around one client call, so the
    embedding keeps three things the properties below are about:

    - Python strings as lists of Unicode code points, with [str.isupper]
      and [len];
    - the keyword arguments of each client call, as a finite map;
    - statement-level control flow ([return], [raise], falling through to
      the next statement, [try ... except Exception]) over a log of the
      client calls made so far.

    Three things the source uses and does not define are parameters: the
    client's answers, the constructor of the framework's base class, and
    the case of the characters beyond ASCII. *)

From Stdlib Require Import ZArith NArith String Ascii List Bool Lia.
From stdpp Require Import base option list strings gmap.

Local Open Scope Z_scope.

(* ===================================================================== *)
(** ** Python values *)
(* ===================================================================== *)

Module Py.

(** A [str] is a sequence of Unicode code points. *)
Abbreviation str := (list N).

(** A string literal of the source, all of whose characters are ASCII. *)
Definition lit (s : string) : str :=
  List.map N_of_ascii (list_ascii_of_string s).

(** [len(s)] *)
Definition len (s : str) : Z := Z.of_nat (length s).

(** The values passed as keyword arguments: [None], a [str], an [int],
    a [List[str]]. *)
Inductive value : Type :=
| None_
| Str (s : str)
| Int (n : Z)
| List_ (l : list str).

(** [Optional[str]] and [Optional[List[str]]] as values. *)
Definition of_optional_str (o : option str) : value :=
  match o with Some s => Str s | None => None_ end.

Definition of_optional_list (o : option (list str)) : value :=
  match o with Some l => List_ l | None => None_ end.

(** Truth value of an [Optional[str]]: [None] and the empty string are
    false. *)
Definition truthy (o : option str) : bool :=
  match o with
  | Some (_ :: _) => true
  | _ => false
  end.

(** [a or b] with [a : Optional[str]], [b : str]; the source applies it
    where the result is used as a [str]. *)
Definition or_ (a : option str) (b : str) : str :=
  match a with
  | Some s => if truthy a then s else b
  | None => b
  end.

(** An argument of a call to a function that declares a default for it. *)
Inductive arg (A : Type) : Type :=
| omitted
| passed (a : A).
Arguments omitted {A}.
Arguments passed {A} a.

Definition arg_default {A : Type} (d : A) (x : arg A) : A :=
  match x with
  | omitted => d
  | passed a => a
  end.

(** *** Case of a character

    [str.isupper] looks at three properties of a code point: uppercase,
    lowercase, titlecase.  They exclude one another; a character with none
    of them is uncased. *)
Inductive case_class : Type := Lu | Ll | Lt | Uncased.

Definition is_Lu (k : case_class) : bool :=
  match k with Lu => true | _ => false end.
Definition is_Ll (k : case_class) : bool :=
  match k with Ll => true | _ => false end.
Definition is_Lt (k : case_class) : bool :=
  match k with Lt => true | _ => false end.
Definition is_cased (k : case_class) : bool :=
  match k with Uncased => false | _ => true end.

(** ASCII: [A]-[Z] are uppercase, [a]-[z] lowercase, nothing else is
    cased. *)
Definition ascii_uppercase_letter (c : N) : bool :=
  ((65 <=? c) && (c <=? 90))%N.
Definition ascii_lowercase_letter (c : N) : bool :=
  ((97 <=? c) && (c <=? 122))%N.

Definition ascii_case (c : N) : case_class :=
  if ascii_uppercase_letter c then Lu
  else if ascii_lowercase_letter c then Ll
  else Uncased.

Section Unicode.

(** The character database beyond ASCII belongs to the Python runtime;
    everything below holds for any such table. *)
Variable ucd : N -> case_class.

Definition case_of (c : N) : case_class :=
  if (c <? 128)%N then ascii_case c else ucd c.

Definition ISUPPER (c : N) : bool := is_Lu (case_of c).
Definition ISLOWER (c : N) : bool := is_Ll (case_of c).
Definition ISTITLE (c : N) : bool := is_Lt (case_of c).

(** A character is cased when it is uppercase, lowercase or titlecase. *)
Definition cased (c : N) : bool := is_cased (case_of c).

(** The scan of [str.isupper]: stop with [False] at the first lowercase
    or titlecase character, remember whether an uppercase one was seen. *)
Fixpoint isupper_scan (s : str) (cased : bool) : bool :=
  match s with
  | [] => cased
  | ch :: rest =>
      if ISLOWER ch || ISTITLE ch then false
      else isupper_scan rest (cased || ISUPPER ch)
  end.

(** [s.isupper()]: true when all cased characters of [s] are uppercase
    and there is at least one cased character.  One-character and empty
    strings are answered before the scan. *)
Definition isupper (s : str) : bool :=
  match s with
  | [ch] => ISUPPER ch
  | [] => false
  | _ => isupper_scan s false
  end.

End Unicode.

(** *** Exceptions *)

(** An instance of [Exception] or of a subclass; [exc_str e] is [str(e)]. *)
Record exception : Type := Exception_ {
  exc_class : string;
  exc_str : str;
}.

(** What a [raise] can carry: an instance of [Exception], which
    [except Exception] catches, or one of the exceptions that derive from
    [BaseException] only ([KeyboardInterrupt], [SystemExit],
    [GeneratorExit]), which it lets through. *)
Inductive raised : Type :=
| ExceptionInstance (e : exception)
| SystemExiting (cls : string).

Definition ValueError (msg : str) : raised :=
  ExceptionInstance (Exception_ "ValueError" msg).

Definition ToolException (msg : str) : raised :=
  ExceptionInstance (Exception_ "ToolException" msg).

(** Result of evaluating an expression. *)
Inductive outcome (A : Type) : Type :=
| Returned (a : A)
| Raised (x : raised).
Arguments Returned {A} a.
Arguments Raised {A} x.

(** How a block of statements ends: it runs off its end ([Next]), returns
    a value from the enclosing function, or raises. *)
Inductive completion (R : Type) : Type :=
| Next
| Return (r : R)
| Throw (x : raised).
Arguments Next {R}.
Arguments Return {R} r.
Arguments Throw {R} x.

End Py.

(* ===================================================================== *)
(** ** The external client *)
(* ===================================================================== *)

Module CustomSECAPI.

(** [pydantic.SecretStr(value)] *)
Record SecretStr : Type := SecretStr_ { get_secret_value : Py.str }.

(** The object made by [CustomSECAPI(api_key=...)], known by the argument
    of its constructor. *)
Record t : Type := CustomSECAPI_ { api_key : SecretStr }.

(** The two operations of the client that the tool uses. *)
Inductive method : Type := get_filings | full_text_search.

(** One call of [meth] on [receiver] with keyword arguments [kwargs]. *)
Record call : Type := Call {
  receiver : t;
  meth : method;
  kwargs : gmap string Py.value;
}.

End CustomSECAPI.

(* ===================================================================== *)
(** ** Statements over a log of client calls *)
(* ===================================================================== *)

Module Eff.
Import Py.

(** What the handler of the tool's [try] blocks does with whatever the call
    raised: an [Exception] is replaced by [wrap] applied to the prefixed
    message, anything else passes. *)
Definition rewrap (wrap : str -> raised) (prefix : str) (x : raised)
    : raised :=
  match x with
  | ExceptionInstance e => wrap (prefix ++ exc_str e)
  | SystemExiting cls => SystemExiting cls
  end.

Section Client.

(** The mapping a client call returns is never inspected by the tool. *)
Context {Result : Type}.

(** The client answers a call by returning a mapping or raising; the
    answer may depend on the calls made before. *)
Variable client : list CustomSECAPI.call -> CustomSECAPI.call -> outcome Result.

Definition log : Type := list CustomSECAPI.call.

(** Expressions and statements read and extend the log. *)
Definition expr (A : Type) : Type := log -> outcome A * log.
Definition stmt : Type := log -> completion Result * log.

(** The call [w.m] with keyword arguments [kw]. *)
Definition invoke (w : CustomSECAPI.t) (m : CustomSECAPI.method)
    (kw : gmap string value) : expr Result :=
  fun h =>
    let c := CustomSECAPI.Call w m kw in
    (client h c, h ++ [c]).

(** [x = e] followed by the statements [k x] *)
Definition assign {A : Type} (e : expr A) (k : A -> stmt) : stmt :=
  fun h =>
    match e h with
    | (Returned a, h') => k a h'
    | (Raised x, h') => (Throw x, h')
    end.

(** [return r] *)
Definition return_ (r : Result) : stmt := fun h => (Return r, h).

(** [raise x] *)
Definition raise_ (x : raised) : stmt := fun h => (Throw x, h).

(** [pass] *)
Definition pass : stmt := fun h => (Next, h).

(** [s1] then [s2]: [s2] runs only when [s1] runs off its end. *)
Definition seq (s1 s2 : stmt) : stmt :=
  fun h =>
    match s1 h with
    | (Next, h') => s2 h'
    | r => r
    end.

(** [if b: s] *)
Definition if_ (b : bool) (s : stmt) : stmt :=
  if b then s else pass.

(** [try: body / except Exception as e: handler e] *)
Definition try_except_Exception (body : stmt) (handler : exception -> stmt)
    : stmt :=
  fun h =>
    match body h with
    | (Throw (ExceptionInstance e), h') => handler e h'
    | r => r
    end.

(** The calls a statement adds to the log [h]. *)
Definition calls_of (s : stmt) (h : log) : list CustomSECAPI.call :=
  drop (length h) (snd (s h)).

End Client.

Declare Scope stmt_scope.
Delimit Scope stmt_scope with stmt.
Bind Scope stmt_scope with stmt.

Notation "x <- e ;; k" := (assign e (fun x => k))
  (at level 100, e at next level, right associativity) : stmt_scope.
Notation "s1 ;; s2" := (seq s1 s2)
  (at level 100, right associativity) : stmt_scope.

End Eff.

(* ===================================================================== *)
(** ** SECAPITool *)
(* ===================================================================== *)

Module SECAPITool.
Import Py Eff.

(** An instance: the declared field [api_key] and the private attribute
    [_api_wrapper]. The fields [name], [description] and [args_schema] are
    constants that no method reads. *)
Record t : Type := SECAPITool_ {
  api_key : str;
  _api_wrapper : CustomSECAPI.t;
}.

(** The property [api_wrapper]. *)
Definition api_wrapper (self : t) : CustomSECAPI.t := _api_wrapper self.

Section Init.

(** [super().__init__], given [api_key] and [kwargs], is the framework's
    model constructor: it validates the fields and either raises or
    leaves a value in [self.api_key]. *)
Variable BaseTool__init__ :
  option str -> gmap string value -> outcome str.

Definition __init__ (api_key : arg (option str))
    (kwargs : gmap string value) : outcome t :=
  let api_key := arg_default None api_key in
  match BaseTool__init__ api_key kwargs with
  | Raised x => Raised x
  | Returned self_api_key =>
      let api_key_value := or_ api_key self_api_key in
      Returned
        {| api_key := self_api_key;
           _api_wrapper :=
             CustomSECAPI.CustomSECAPI_
               (CustomSECAPI.SecretStr_ api_key_value) |}
  end.

End Init.

Section Methods.
Local Open Scope stmt_scope.

Context {Result : Type}.
Variable ucd : N -> case_class.
Variable client :
  list CustomSECAPI.call -> CustomSECAPI.call -> outcome Result.

Definition full_text_search (self : t) (query : str)
    (form_types : arg (option (list str)))
    (date_from date_to : arg (option str))
    (limit : arg Z) : stmt :=
  let form_types := arg_default None form_types in
  let date_from := arg_default None date_from in
  let date_to := arg_default None date_to in
  let limit := arg_default 50 limit in
  try_except_Exception
    (results <-
       invoke client (api_wrapper self) CustomSECAPI.full_text_search
         {[ "search_query" := Str query;
            "form_types" := of_optional_list form_types;
            "date_from" := of_optional_str date_from;
            "date_to" := of_optional_str date_to;
            "limit" := Int limit ]};;
     return_ results)
    (fun e =>
       raise_ (ValueError (lit "Error in full text search: " ++ exc_str e))).

Definition filing_search (self : t) (ticker : str)
    (form_type : arg (option str))
    (date_from date_to : arg (option str))
    (limit : arg Z) : stmt :=
  let form_type := arg_default None form_type in
  let date_from := arg_default None date_from in
  let date_to := arg_default None date_to in
  let limit := arg_default 50 limit in
  try_except_Exception
    (results <-
       invoke client (api_wrapper self) CustomSECAPI.get_filings
         {[ "ticker" := Str ticker;
            "form_type" := of_optional_str form_type;
            "date_from" := of_optional_str date_from;
            "date_to" := of_optional_str date_to;
            "limit" := Int limit ]};;
     return_ results)
    (fun e =>
       raise_ (ValueError (lit "Error in filing search: " ++ exc_str e))).

(** [run_manager] and the extra keyword arguments are accepted and not
    used. *)
Definition _run (self : t) (query : str)
    (run_manager : option unit) (kwargs : gmap string value) : stmt :=
  if_ (isupper ucd query && (len query <=? 5))
    (try_except_Exception
       (results <-
          invoke client (api_wrapper self) CustomSECAPI.get_filings
            {[ "ticker" := Str query; "limit" := Int 5 ]};;
        return_ results)
       (fun e =>
          raise_
            (ToolException (lit "Error searching filings: " ++ exc_str e))));;
  try_except_Exception
    (results <-
       invoke client (api_wrapper self) CustomSECAPI.full_text_search
         {[ "search_query" := Str query; "limit" := Int 5 ]};;
     return_ results)
    (fun e =>
       raise_ (ToolException (lit "Error searching text: " ++ exc_str e))).

End Methods.

End SECAPITool.


(* ===================================================================== *)
(** ** Sample tables, clients and tools *)
(* ===================================================================== *)

Module Sample.
Import Py.

(** A character table with no cased character beyond ASCII. *)
Definition ascii_only : N -> case_class := fun _ => Uncased.

(** A tool whose wrapper holds the key [k]. *)
Definition tool (k : string) : SECAPITool.t :=
  {| SECAPITool.api_key := lit k;
     SECAPITool._api_wrapper :=
       CustomSECAPI.CustomSECAPI_ (CustomSECAPI.SecretStr_ (lit k)) |}.

(** A client that answers every call with the same mapping. *)
Definition answering (d : gmap string value)
    : list CustomSECAPI.call -> CustomSECAPI.call ->
      outcome (gmap string value) :=
  fun _ _ => Returned d.

(** A client on which every call raises [x]. *)
Definition failing (x : raised)
    : list CustomSECAPI.call -> CustomSECAPI.call ->
      outcome (gmap string value) :=
  fun _ _ => Raised x.

Definition no_filings : gmap string value := {[ "total" := Int 0 ]}.

Definition ConnectionError : exception :=
  Exception_ "ConnectionError" (lit "API Error").

(** A framework constructor that ignores its argument and stores
    [configured]. *)
Definition preconfigured (configured : str)
    : option str -> gmap string value -> outcome str :=
  fun _ _ => Returned configured.

End Sample.

(* ===================================================================== *)
(** ** Facts about [str.isupper] *)
(* ===================================================================== *)

Section IsUpper.
Import Py.

Variable ucd : N -> case_class.

Lemma cased_cases (c : N) :
  cased ucd c = ISUPPER ucd c || ISLOWER ucd c || ISTITLE ucd c.
Proof.
  unfold cased, ISUPPER, ISLOWER, ISTITLE.
  destruct (case_of ucd c); reflexivity.
Qed.

Lemma upper_not_lower_title (c : N) :
  ISUPPER ucd c = true -> ISLOWER ucd c || ISTITLE ucd c = false.
Proof.
  unfold ISUPPER, ISLOWER, ISTITLE.
  destruct (case_of ucd c); simpl; congruence.
Qed.

Lemma ascii_letter_upper (c : N) :
  ascii_uppercase_letter c = true -> ISUPPER ucd c = true.
Proof.
  intros H. unfold ISUPPER, case_of, ascii_case. rewrite H.
  unfold ascii_uppercase_letter in H.
  apply andb_true_iff in H as [_ H]. apply N.leb_le in H.
  destruct (N.ltb_spec c 128) as [_ | Hge]; [reflexivity | lia].
Qed.

(** The scan answers [True] exactly when it meets no lowercase or
    titlecase character and an uppercase one was or is seen. *)
Lemma isupper_scan_true (s : str) (seen : bool) :
  isupper_scan ucd s seen = true <->
  Forall (fun c => ISLOWER ucd c || ISTITLE ucd c = false) s /\
  (seen = true \/ Exists (fun c => ISUPPER ucd c = true) s).
Proof.
  revert seen. induction s as [| ch rest IH]; intros seen; simpl.
  - split.
    + intros ->. split; [constructor | now left].
    + intros [_ [H | H]]; [exact H | inversion H].
  - destruct (ISLOWER ucd ch || ISTITLE ucd ch) eqn:Hlt.
    + split; [discriminate |].
      intros [Hall _]. inversion Hall; subst. congruence.
    + rewrite IH. split.
      * intros [Hall Hsome]. split; [constructor; assumption |].
        destruct Hsome as [Hsome | Hsome].
        -- apply orb_true_iff in Hsome as [-> | Hu]; [now left |].
           right. now constructor.
        -- right. now constructor 2.
      * intros [Hall Hsome]. inversion Hall; subst. split; [assumption |].
        destruct Hsome as [-> | Hsome]; [now left |].
        inversion Hsome; subst.
        -- left. apply orb_true_iff. now right.
        -- now right.
Qed.

(** The shortcuts for short strings agree with the scan. *)
Lemma isupper_is_scan (s : str) : isupper ucd s = isupper_scan ucd s false.
Proof.
  destruct s as [| ch [| ch' rest]]; try reflexivity.
  simpl. destruct (ISUPPER ucd ch) eqn:Hu.
  - now rewrite (upper_not_lower_title _ Hu).
  - now destruct (ISLOWER ucd ch || ISTITLE ucd ch).
Qed.

(** [s.isupper()] as the library documents it: every cased character of
    [s] is uppercase, and [s] has a cased character. *)
Lemma isupper_true (s : str) :
  isupper ucd s = true <->
  (forall c, c ∈ s -> cased ucd c = true -> ISUPPER ucd c = true) /\
  (exists c, c ∈ s /\ cased ucd c = true).
Proof.
  rewrite isupper_is_scan, isupper_scan_true, Forall_forall, Exists_exists.
  split.
  - intros [Hall [Hf | (c & Hin & Hu)]]; [discriminate |]. split.
    + intros d Hd Hcased. specialize (Hall d Hd).
      rewrite cased_cases in Hcased.
      destruct (ISUPPER ucd d); [reflexivity |].
      simpl in Hcased. congruence.
    + exists c. split; [assumption |].
      rewrite cased_cases, Hu. reflexivity.
  - intros [Hall (c & Hin & Hc)]. split.
    + intros d Hd. destruct (cased ucd d) eqn:Hcd.
      * apply upper_not_lower_title. now apply Hall.
      * rewrite cased_cases in Hcd.
        destruct (ISUPPER ucd d); [discriminate | exact Hcd].
    + right. exists c. split; [assumption | now apply Hall].
Qed.

Lemma isupper_false (s : str) :
  (exists c, c ∈ s /\ ISLOWER ucd c || ISTITLE ucd c = true) \/
  (forall c, c ∈ s -> ISUPPER ucd c = false) ->
  isupper ucd s = false.
Proof.
  intros H. apply not_true_is_false. intros Hup.
  apply isupper_true in Hup as [Hall (c & Hin & Hc)].
  destruct H as [(d & Hd & Hlt) | Hnone].
  - assert (Hcd : cased ucd d = true).
    { rewrite cased_cases. destruct (ISUPPER ucd d); [reflexivity | exact Hlt]. }
    specialize (Hall d Hd Hcd).
    rewrite (upper_not_lower_title _ Hall) in Hlt. discriminate.
  - specialize (Hall c Hin Hc). rewrite (Hnone c Hin) in Hall. discriminate.
Qed.

End IsUpper.


(* ===================================================================== *)
(** ** One guarded client call *)
(* ===================================================================== *)

Section Guarded.
Import Py Eff.

Context {Result : Type}.
Variable client :
  list CustomSECAPI.call -> CustomSECAPI.call -> outcome Result.

(** Every method body of the tool has this shape: call, return the
    result; on [Exception], raise a new exception with a prefixed message.
    It logs the one call and never runs off its end. *)
Lemma guarded_call (w : CustomSECAPI.t) (m : CustomSECAPI.method)
    (kw : gmap string value) (wrap : str -> raised) (prefix : str)
    (h : log) :
  try_except_Exception
    (assign (invoke client w m kw) (fun results => return_ results))
    (fun e => raise_ (wrap (prefix ++ exc_str e))) h
  = (match client h (CustomSECAPI.Call w m kw) with
     | Returned d => Return d
     | Raised x => Throw (rewrap wrap prefix x)
     end,
     h ++ [CustomSECAPI.Call w m kw]).
Proof.
  unfold try_except_Exception, assign, invoke, return_, raise_. simpl.
  destruct (client h (CustomSECAPI.Call w m kw)) as [d | [e | cls]];
    reflexivity.
Qed.

(** A statement that leaves the log one call longer made that call. *)
Lemma calls_of_one (s : stmt (Result := Result)) (h : log)
    (r : completion Result) (c : CustomSECAPI.call) :
  s h = (r, h ++ [c]) -> calls_of s h = [c].
Proof.
  intros Hs. unfold calls_of. rewrite Hs. simpl. apply drop_app_length.
Qed.

(** When a single call was made, no call was made to another method. *)
Lemma sole_call_method (calls : list CustomSECAPI.call)
    (c : CustomSECAPI.call) (m : CustomSECAPI.method) :
  calls = [c] ->
  CustomSECAPI.meth c <> m ->
  forall c', c' ∈ calls -> CustomSECAPI.meth c' <> m.
Proof.
  intros -> Hm c' Hc'. apply list_elem_of_singleton in Hc' as ->. exact Hm.
Qed.

End Guarded.

(* ===================================================================== *)
(** ** Routing in [_run] *)
(* ===================================================================== *)

Section Routing.
Import Py Eff SECAPITool.

Context {Result : Type}.
Variable ucd : N -> case_class.
Variable client :
  list CustomSECAPI.call -> CustomSECAPI.call -> outcome Result.

(** The two calls [_run] can make for a query. *)
Local Abbreviation filings_call self query :=
  (CustomSECAPI.Call (api_wrapper self) CustomSECAPI.get_filings
     {[ "ticker" := Str query; "limit" := Int 5 ]}).

Local Abbreviation text_call self query :=
  (CustomSECAPI.Call (api_wrapper self) CustomSECAPI.full_text_search
     {[ "search_query" := Str query; "limit" := Int 5 ]}).

(** When the test of the [if] holds, the block under it returns or
    raises, and the statements after it are not reached. *)
Lemma run_ticker_branch (self : SECAPITool.t) (query : str)
    (run_manager : option unit) (kwargs : gmap string value) (h : log) :
  isupper ucd query && (len query <=? 5) = true ->
  _run ucd client self query run_manager kwargs h
  = (match client h (filings_call self query) with
     | Returned d => Return d
     | Raised x =>
         Throw (rewrap ToolException (lit "Error searching filings: ") x)
     end,
     h ++ [filings_call self query]).
Proof.
  intros Hcond. unfold _run, seq, if_. rewrite Hcond.
  rewrite guarded_call.
  destruct (client h _) as [d | x]; reflexivity.
Qed.

(** When the test fails, the [if] is skipped and the second [try] runs. *)
Lemma run_text_branch (self : SECAPITool.t) (query : str)
    (run_manager : option unit) (kwargs : gmap string value) (h : log) :
  isupper ucd query && (len query <=? 5) = false ->
  _run ucd client self query run_manager kwargs h
  = (match client h (text_call self query) with
     | Returned d => Return d
     | Raised x =>
         Throw (rewrap ToolException (lit "Error searching text: ") x)
     end,
     h ++ [text_call self query]).
Proof.
  intros Hcond. unfold _run, seq, if_, pass. rewrite Hcond.
  rewrite guarded_call.
  reflexivity.
Qed.

(** Uppercase ASCII letters, at least one: [isupper] holds. *)
Lemma isupper_ascii_letters (q : str) :
  Forall (fun c => ascii_uppercase_letter c = true) q -> q <> [] ->
  isupper ucd q = true.
Proof.
  intros Hall Hne. apply isupper_true. split.
  - intros c Hc _. apply ascii_letter_upper.
    rewrite Forall_forall in Hall. now apply Hall.
  - destruct q as [| c rest]; [congruence |].
    exists c. split; [left |].
    inversion Hall; subst.
    rewrite cased_cases, (ascii_letter_upper ucd c); [reflexivity | assumption].
Qed.

(** C1. A query made of uppercase ASCII letters only, of length 1 to 5,
    makes [_run] call [get_filings] with [ticker] the query and [limit] 5,
    and nothing else: no call of [full_text_search]. When that call
    returns a mapping, [_run] returns the same mapping. *)
Theorem run_ticker_query (self : SECAPITool.t) (q : str)
    (run_manager : option unit) (kwargs : gmap string value) (h : log) :
  Forall (fun c => ascii_uppercase_letter c = true) q ->
  1 <= len q <= 5 ->
  calls_of (_run ucd client self q run_manager kwargs) h
  = [CustomSECAPI.Call (api_wrapper self) CustomSECAPI.get_filings
       {[ "ticker" := Str q; "limit" := Int 5 ]}]
  /\ (forall c, c ∈ calls_of (_run ucd client self q run_manager kwargs) h ->
        CustomSECAPI.meth c <> CustomSECAPI.full_text_search)
  /\ (forall d,
        client h
          (CustomSECAPI.Call (api_wrapper self) CustomSECAPI.get_filings
             {[ "ticker" := Str q; "limit" := Int 5 ]}) = Returned d ->
        fst (_run ucd client self q run_manager kwargs h) = Return d).
Proof.
  intros Hall [Hlo Hhi].
  assert (Hcond : isupper ucd q && (len q <=? 5) = true).
  { apply andb_true_iff. split.
    - apply isupper_ascii_letters; [assumption |].
      intros ->. unfold len in Hlo. simpl in Hlo. lia.
    - now apply Z.leb_le. }
  pose proof (run_ticker_branch self q run_manager kwargs h Hcond) as Hrun.
  pose proof (calls_of_one _ _ _ _ Hrun) as Hcalls.
  split; [exact Hcalls |]. split.
  - apply (sole_call_method _ _ _ Hcalls). discriminate.
  - intros d Hd. rewrite Hrun, Hd. reflexivity.
Qed.

(** C2, as the code has it. A non-empty query that is longer than 5
    characters, or has a lowercase or titlecase character, or has no
    uppercase character, makes [_run] call [full_text_search] with
    [search_query] the query and [limit] 5, and never [get_filings]. *)
Theorem run_text_query (self : SECAPITool.t) (q : str)
    (run_manager : option unit) (kwargs : gmap string value) (h : log) :
  q <> [] ->
  5 < len q
  \/ (exists c, c ∈ q /\ ISLOWER ucd c || ISTITLE ucd c = true)
  \/ (forall c, c ∈ q -> ISUPPER ucd c = false) ->
  calls_of (_run ucd client self q run_manager kwargs) h
  = [CustomSECAPI.Call (api_wrapper self) CustomSECAPI.full_text_search
       {[ "search_query" := Str q; "limit" := Int 5 ]}]
  /\ (forall c, c ∈ calls_of (_run ucd client self q run_manager kwargs) h ->
        CustomSECAPI.meth c <> CustomSECAPI.get_filings).
Proof.
  intros _ Hshape.
  assert (Hcond : isupper ucd q && (len q <=? 5) = false).
  { apply andb_false_iff. destruct Hshape as [Hlong | Hcase].
    - right. apply Z.leb_gt. exact Hlong.
    - left. apply isupper_false. exact Hcase. }
  pose proof (run_text_branch self q run_manager kwargs h Hcond) as Hrun.
  pose proof (calls_of_one _ _ _ _ Hrun) as Hcalls.
  split; [exact Hcalls |].
  apply (sole_call_method _ _ _ Hcalls). discriminate.
Qed.

(** C7. On the empty query the test of [_run] is false, and [_run] calls
    [full_text_search] with the empty string as [search_query] and
    [limit] 5, never [get_filings]. *)
Theorem run_empty_query (self : SECAPITool.t)
    (run_manager : option unit) (kwargs : gmap string value) (h : log) :
  isupper ucd [] && (len [] <=? 5) = false
  /\ calls_of (_run ucd client self [] run_manager kwargs) h
     = [CustomSECAPI.Call (api_wrapper self) CustomSECAPI.full_text_search
          {[ "search_query" := Str []; "limit" := Int 5 ]}]
  /\ (forall c, c ∈ calls_of (_run ucd client self [] run_manager kwargs) h ->
        CustomSECAPI.meth c <> CustomSECAPI.get_filings).
Proof.
  assert (Hcond : isupper ucd [] && (len [] <=? 5) = false) by reflexivity.
  pose proof (run_text_branch self [] run_manager kwargs h Hcond) as Hrun.
  pose proof (calls_of_one _ _ _ _ Hrun) as Hcalls.
  split; [exact Hcond |]. split; [exact Hcalls |].
  apply (sole_call_method _ _ _ Hcalls). discriminate.
Qed.

(** C9. The test [_run] applies is [query.isupper()] and
    [len(query) <= 5]: a query of at most 5 characters that has a cased
    character, and whose cased characters are all uppercase, goes to
    [get_filings] and not to [full_text_search], whatever uncased
    characters (digits, punctuation) it has besides. *)
Theorem run_isupper_routing (self : SECAPITool.t) (q : str)
    (run_manager : option unit) (kwargs : gmap string value) (h : log) :
  len q <= 5 ->
  (exists c, c ∈ q /\ cased ucd c = true) ->
  (forall c, c ∈ q -> cased ucd c = true -> ISUPPER ucd c = true) ->
  isupper ucd q && (len q <=? 5) = true
  /\ calls_of (_run ucd client self q run_manager kwargs) h
     = [CustomSECAPI.Call (api_wrapper self) CustomSECAPI.get_filings
          {[ "ticker" := Str q; "limit" := Int 5 ]}]
  /\ (forall c, c ∈ calls_of (_run ucd client self q run_manager kwargs) h ->
        CustomSECAPI.meth c <> CustomSECAPI.full_text_search).
Proof.
  intros Hlen Hsome Hall.
  assert (Hcond : isupper ucd q && (len q <=? 5) = true).
  { apply andb_true_iff. split.
    - apply isupper_true. split; assumption.
    - now apply Z.leb_le. }
  pose proof (run_ticker_branch self q run_manager kwargs h Hcond) as Hrun.
  pose proof (calls_of_one _ _ _ _ Hrun) as Hcalls.
  split; [exact Hcond |]. split; [exact Hcalls |].
  apply (sole_call_method _ _ _ Hcalls). discriminate.
Qed.

(** The message prefix of each branch of [_run]. *)
Local Abbreviation branch_prefix m :=
  (match m with
   | CustomSECAPI.get_filings => lit "Error searching filings: "
   | CustomSECAPI.full_text_search => lit "Error searching text: "
   end).

(** Whatever the query, [_run] makes one call, the one its test selects. *)
Lemma run_log (self : SECAPITool.t) (q : str)
    (run_manager : option unit) (kwargs : gmap string value) (h : log) :
  _run ucd client self q run_manager kwargs h
  = (match
       client h
         (if isupper ucd q && (len q <=? 5)
          then filings_call self q else text_call self q)
     with
     | Returned d => Return d
     | Raised x =>
         Throw
           (rewrap ToolException
              (branch_prefix
                 (if isupper ucd q && (len q <=? 5)
                  then CustomSECAPI.get_filings
                  else CustomSECAPI.full_text_search)) x)
     end,
     h ++ [if isupper ucd q && (len q <=? 5)
           then filings_call self q else text_call self q]).
Proof.
  destruct (isupper ucd q && (len q <=? 5)) eqn:Hcond.
  - now apply run_ticker_branch.
  - now apply run_text_branch.
Qed.

(** C3. When the call [_run] makes raises an exception, [_run] raises
    [ToolException]; its message is the prefix of the branch taken,
    [Error searching filings: ] after [get_filings] and
    [Error searching text: ] after [full_text_search], followed by the
    text of the exception caught. *)
Theorem run_wraps_exception (self : SECAPITool.t) (q : str)
    (run_manager : option unit) (kwargs : gmap string value) (h : log)
    (c : CustomSECAPI.call) (e : exception) :
  calls_of (_run ucd client self q run_manager kwargs) h = [c] ->
  client h c = Raised (ExceptionInstance e) ->
  fst (_run ucd client self q run_manager kwargs h)
  = Throw
      (ToolException
         (match CustomSECAPI.meth c with
          | CustomSECAPI.get_filings => lit "Error searching filings: "
          | CustomSECAPI.full_text_search => lit "Error searching text: "
          end ++ exc_str e)).
Proof.
  intros Hcalls Hraise.
  pose proof (run_log self q run_manager kwargs h) as Hrun.
  rewrite (calls_of_one _ _ _ _ Hrun) in Hcalls.
  injection Hcalls as Hc. rewrite Hrun, Hc, Hraise. subst c.
  destruct (isupper ucd q && (len q <=? 5)); reflexivity.
Qed.

(** C10. [_run] makes at most one client call. When the query passes the
    test and [get_filings] raises an exception, [_run] raises
    [ToolException] and [full_text_search] is not called. *)
Theorem run_single_call (self : SECAPITool.t) (q : str)
    (run_manager : option unit) (kwargs : gmap string value) (h : log) :
  (length (calls_of (_run ucd client self q run_manager kwargs) h) <= 1)%nat
  /\ (forall e,
        isupper ucd q && (len q <=? 5) = true ->
        client h
          (CustomSECAPI.Call (api_wrapper self) CustomSECAPI.get_filings
             {[ "ticker" := Str q; "limit" := Int 5 ]})
        = Raised (ExceptionInstance e) ->
        fst (_run ucd client self q run_manager kwargs h)
        = Throw
            (ToolException (lit "Error searching filings: " ++ exc_str e))
        /\ (forall c,
              c ∈ calls_of (_run ucd client self q run_manager kwargs) h ->
              CustomSECAPI.meth c <> CustomSECAPI.full_text_search)).
Proof.
  split.
  - pose proof (run_log self q run_manager kwargs h) as Hrun.
    rewrite (calls_of_one _ _ _ _ Hrun). simpl. lia.
  - intros e Hcond Hraise.
    pose proof (run_ticker_branch self q run_manager kwargs h Hcond) as Hrun.
    pose proof (calls_of_one _ _ _ _ Hrun) as Hcalls.
    split.
    + rewrite Hrun, Hraise. reflexivity.
    + apply (sole_call_method _ _ _ Hcalls). discriminate.
Qed.

(** X3. An exception outside [Exception] ([KeyboardInterrupt],
    [SystemExit]) raised by the client call is not caught: it leaves [_run]
    as it is, not as a [ToolException]. *)
Lemma run_system_exit (self : SECAPITool.t) (q : str)
    (run_manager : option unit) (kwargs : gmap string value) (h : log)
    (c : CustomSECAPI.call) (cls : string) :
  calls_of (_run ucd client self q run_manager kwargs) h = [c] ->
  client h c = Raised (SystemExiting cls) ->
  fst (_run ucd client self q run_manager kwargs h)
  = Throw (SystemExiting cls).
Proof.
  intros Hcalls Hraise.
  pose proof (run_log self q run_manager kwargs h) as Hrun.
  rewrite (calls_of_one _ _ _ _ Hrun) in Hcalls.
  injection Hcalls as Hc. rewrite Hrun, Hc, Hraise. reflexivity.
Qed.

End Routing.

(* ===================================================================== *)
(** ** The operations with explicit parameters *)
(* ===================================================================== *)

Section Explicit.
Import Py Eff SECAPITool.

Context {Result : Type}.
Variable client :
  list CustomSECAPI.call -> CustomSECAPI.call -> outcome Result.

Lemma filing_search_run (self : SECAPITool.t) (ticker : str)
    (form_type date_from date_to : arg (option str)) (limit : arg Z)
    (h : log) :
  filing_search client self ticker form_type date_from date_to limit h
  = (match
       client h
         (CustomSECAPI.Call (api_wrapper self) CustomSECAPI.get_filings
            {[ "ticker" := Str ticker;
               "form_type" := of_optional_str (arg_default None form_type);
               "date_from" := of_optional_str (arg_default None date_from);
               "date_to" := of_optional_str (arg_default None date_to);
               "limit" := Int (arg_default 50 limit) ]})
     with
     | Returned d => Return d
     | Raised x => Throw (rewrap ValueError (lit "Error in filing search: ") x)
     end,
     h ++ [CustomSECAPI.Call (api_wrapper self) CustomSECAPI.get_filings
             {[ "ticker" := Str ticker;
                "form_type" := of_optional_str (arg_default None form_type);
                "date_from" := of_optional_str (arg_default None date_from);
                "date_to" := of_optional_str (arg_default None date_to);
                "limit" := Int (arg_default 50 limit) ]}]).
Proof. unfold filing_search. now rewrite guarded_call. Qed.

Lemma full_text_search_run (self : SECAPITool.t) (query : str)
    (form_types : arg (option (list str)))
    (date_from date_to : arg (option str)) (limit : arg Z) (h : log) :
  full_text_search client self query form_types date_from date_to limit h
  = (match
       client h
         (CustomSECAPI.Call (api_wrapper self) CustomSECAPI.full_text_search
            {[ "search_query" := Str query;
               "form_types" := of_optional_list (arg_default None form_types);
               "date_from" := of_optional_str (arg_default None date_from);
               "date_to" := of_optional_str (arg_default None date_to);
               "limit" := Int (arg_default 50 limit) ]})
     with
     | Returned d => Return d
     | Raised x =>
         Throw (rewrap ValueError (lit "Error in full text search: ") x)
     end,
     h ++ [CustomSECAPI.Call (api_wrapper self) CustomSECAPI.full_text_search
             {[ "search_query" := Str query;
                "form_types" := of_optional_list (arg_default None form_types);
                "date_from" := of_optional_str (arg_default None date_from);
                "date_to" := of_optional_str (arg_default None date_to);
                "limit" := Int (arg_default 50 limit) ]}]).
Proof. unfold full_text_search. now rewrite guarded_call. Qed.

(** C4. [filing_search] called with a ticker alone calls [get_filings]
    with that ticker, [form_type], [date_from] and [date_to] all [None],
    and [limit] 50; called with all five arguments it passes each of them
    on as it is. *)
Theorem filing_search_forwards (self : SECAPITool.t) (ticker : str)
    (form_type date_from date_to : option str) (limit : Z) (h : log) :
  calls_of (filing_search client self ticker omitted omitted omitted omitted) h
  = [CustomSECAPI.Call (api_wrapper self) CustomSECAPI.get_filings
       {[ "ticker" := Str ticker;
          "form_type" := None_;
          "date_from" := None_;
          "date_to" := None_;
          "limit" := Int 50 ]}]
  /\ calls_of
       (filing_search client self ticker (passed form_type)
          (passed date_from) (passed date_to) (passed limit)) h
     = [CustomSECAPI.Call (api_wrapper self) CustomSECAPI.get_filings
          {[ "ticker" := Str ticker;
             "form_type" := of_optional_str form_type;
             "date_from" := of_optional_str date_from;
             "date_to" := of_optional_str date_to;
             "limit" := Int limit ]}].
Proof.
  split.
  - exact (calls_of_one _ _ _ _
             (filing_search_run self ticker omitted omitted omitted omitted h)).
  - exact (calls_of_one _ _ _ _
             (filing_search_run self ticker (passed form_type)
                (passed date_from) (passed date_to) (passed limit) h)).
Qed.

(** C5. [full_text_search] called with a query alone calls the client's
    [full_text_search] with [search_query] that query, [form_types],
    [date_from] and [date_to] all [None], and [limit] 50; called with all
    five arguments it passes each of them on as it is. *)
Theorem full_text_search_forwards (self : SECAPITool.t) (query : str)
    (form_types : option (list str)) (date_from date_to : option str)
    (limit : Z) (h : log) :
  calls_of
    (full_text_search client self query omitted omitted omitted omitted) h
  = [CustomSECAPI.Call (api_wrapper self) CustomSECAPI.full_text_search
       {[ "search_query" := Str query;
          "form_types" := None_;
          "date_from" := None_;
          "date_to" := None_;
          "limit" := Int 50 ]}]
  /\ calls_of
       (full_text_search client self query (passed form_types)
          (passed date_from) (passed date_to) (passed limit)) h
     = [CustomSECAPI.Call (api_wrapper self) CustomSECAPI.full_text_search
          {[ "search_query" := Str query;
             "form_types" := of_optional_list form_types;
             "date_from" := of_optional_str date_from;
             "date_to" := of_optional_str date_to;
             "limit" := Int limit ]}].
Proof.
  split.
  - exact (calls_of_one _ _ _ _
             (full_text_search_run self query omitted omitted omitted omitted h)).
  - exact (calls_of_one _ _ _ _
             (full_text_search_run self query (passed form_types)
                (passed date_from) (passed date_to) (passed limit) h)).
Qed.

(** C6. When the client call of an operation with explicit parameters
    raises an exception, the operation raises [ValueError] with the
    message [Error in filing search: ] (for [filing_search]) or
    [Error in full text search: ] (for [full_text_search]) followed by
    the text of the exception caught. *)
Theorem explicit_search_wraps_exception (self : SECAPITool.t)
    (ticker query : str) (form_type : arg (option str))
    (form_types : arg (option (list str)))
    (date_from date_to : arg (option str)) (limit : arg Z) (h : log) :
  (forall c e,
     calls_of
       (filing_search client self ticker form_type date_from date_to limit) h
     = [c] ->
     client h c = Raised (ExceptionInstance e) ->
     fst (filing_search client self ticker form_type date_from date_to limit h)
     = Throw (ValueError (lit "Error in filing search: " ++ exc_str e)))
  /\ (forall c e,
        calls_of
          (full_text_search client self query form_types date_from date_to
             limit) h
        = [c] ->
        client h c = Raised (ExceptionInstance e) ->
        fst
          (full_text_search client self query form_types date_from date_to
             limit h)
        = Throw (ValueError (lit "Error in full text search: " ++ exc_str e))).
Proof.
  split; intros c e Hcalls Hraise.
  - pose proof
      (filing_search_run self ticker form_type date_from date_to limit h)
      as Hrun.
    rewrite (calls_of_one _ _ _ _ Hrun) in Hcalls.
    injection Hcalls as Hc. rewrite Hrun, Hc, Hraise. reflexivity.
  - pose proof
      (full_text_search_run self query form_types date_from date_to limit h)
      as Hrun.
    rewrite (calls_of_one _ _ _ _ Hrun) in Hcalls.
    injection Hcalls as Hc. rewrite Hrun, Hc, Hraise. reflexivity.
Qed.

(** An exception outside [Exception] leaves both operations as it is. *)
Lemma explicit_search_system_exit (self : SECAPITool.t)
    (ticker query : str) (form_type : arg (option str))
    (form_types : arg (option (list str)))
    (date_from date_to : arg (option str)) (limit : arg Z) (h : log)
    (cls : string) :
  (forall c, client h c = Raised (SystemExiting cls)) ->
  fst (filing_search client self ticker form_type date_from date_to limit h)
  = Throw (SystemExiting cls)
  /\ fst
       (full_text_search client self query form_types date_from date_to
          limit h)
     = Throw (SystemExiting cls).
Proof.
  intros Hraise.
  rewrite filing_search_run, full_text_search_run, !Hraise.
  split; reflexivity.
Qed.

End Explicit.

(* ===================================================================== *)
(** ** Construction *)
(* ===================================================================== *)

Section Construction.
Import Py SECAPITool.

Variable BaseTool__init__ : option str -> gmap string value -> outcome str.

(** C8. Constructed with a non-empty [api_key] argument, the tool binds
    its client wrapper to that key, whatever key the framework's
    constructor has left in the field [api_key]. *)
Theorem init_explicit_key (k : str) (kwargs : gmap string value)
    (stored : str) :
  k <> [] ->
  BaseTool__init__ (Some k) kwargs = Returned stored ->
  exists tool,
    __init__ BaseTool__init__ (passed (Some k)) kwargs = Returned tool
    /\ api_wrapper tool
       = CustomSECAPI.CustomSECAPI_ (CustomSECAPI.SecretStr_ k).
Proof.
  intros Hk Hbase. unfold __init__. simpl. rewrite Hbase.
  eexists. split; [reflexivity |].
  unfold api_wrapper. simpl.
  destruct k as [| c rest]; [congruence | reflexivity].
Qed.

End Construction.

(* ===================================================================== *)
(** ** The properties on sample queries *)
(* ===================================================================== *)

Section Samples.
Import Py Eff SECAPITool Sample.

(** [TSLA] goes to [get_filings], and the mapping comes back as it is. *)
Lemma run_ticker_query_TSLA :
  calls_of
    (_run ascii_only (answering no_filings) (tool "key") (lit "TSLA")
       None ∅) []
  = [CustomSECAPI.Call (api_wrapper (tool "key")) CustomSECAPI.get_filings
       {[ "ticker" := Str (lit "TSLA"); "limit" := Int 5 ]}]
  /\ fst
       (_run ascii_only (answering no_filings) (tool "key") (lit "TSLA")
          None ∅ [])
     = Return no_filings.
Proof.
  destruct
    (run_ticker_query ascii_only (answering no_filings) (tool "key")
       (lit "TSLA") None ∅ [])
    as (Hcalls & _ & Hret).
  - repeat constructor.
  - unfold len. simpl. lia.
  - split; [exact Hcalls | apply Hret; reflexivity].
Defined.

(** [10-K] is not made of letters only, yet it goes to [get_filings] and
    not to [full_text_search]. *)
Lemma run_form_name_counterexample :
  lit "10-K" <> []
  /\ ~ (Forall (fun c => ascii_uppercase_letter c = true) (lit "10-K")
        /\ len (lit "10-K") <= 5)
  /\ calls_of
       (_run ascii_only (answering no_filings) (tool "key") (lit "10-K")
          None ∅) []
     = [CustomSECAPI.Call (api_wrapper (tool "key")) CustomSECAPI.get_filings
          {[ "ticker" := Str (lit "10-K"); "limit" := Int 5 ]}]
  /\ calls_of
       (_run ascii_only (answering no_filings) (tool "key") (lit "10-K")
          None ∅) []
     <> [CustomSECAPI.Call (api_wrapper (tool "key"))
           CustomSECAPI.full_text_search
           {[ "search_query" := Str (lit "10-K"); "limit" := Int 5 ]}].
Proof.
  assert (Hrun :
    calls_of
      (_run ascii_only (answering no_filings) (tool "key") (lit "10-K")
         None ∅) []
    = [CustomSECAPI.Call (api_wrapper (tool "key")) CustomSECAPI.get_filings
         {[ "ticker" := Str (lit "10-K"); "limit" := Int 5 ]}]).
  { apply calls_of_one with (r := Return no_filings).
    now rewrite run_ticker_branch. }
  split; [discriminate |]. split.
  - intros [Hall _]. inversion Hall as [| c rest Hc _]. discriminate Hc.
  - split; [exact Hrun |]. rewrite Hrun. intros Heq. discriminate Heq.
Qed.

(** A query of letters and spaces goes to [full_text_search]. *)
Lemma run_text_query_keywords :
  calls_of
    (_run ascii_only (answering no_filings) (tool "key")
       (lit "artificial intelligence") None ∅) []
  = [CustomSECAPI.Call (api_wrapper (tool "key"))
       CustomSECAPI.full_text_search
       {[ "search_query" := Str (lit "artificial intelligence");
          "limit" := Int 5 ]}].
Proof.
  apply (run_text_query ascii_only (answering no_filings) (tool "key")
           (lit "artificial intelligence") None ∅ []).
  - discriminate.
  - left. unfold len. simpl. lia.
Defined.

(** [10-K] and [A1] each have one cased character, and it is uppercase:
    both go to [get_filings]. *)
Lemma run_isupper_routing_forms :
  calls_of
    (_run ascii_only (answering no_filings) (tool "key") (lit "10-K")
       None ∅) []
  = [CustomSECAPI.Call (api_wrapper (tool "key")) CustomSECAPI.get_filings
       {[ "ticker" := Str (lit "10-K"); "limit" := Int 5 ]}]
  /\ calls_of
       (_run ascii_only (answering no_filings) (tool "key") (lit "A1")
          None ∅) []
     = [CustomSECAPI.Call (api_wrapper (tool "key")) CustomSECAPI.get_filings
          {[ "ticker" := Str (lit "A1"); "limit" := Int 5 ]}].
Proof.
  split.
  - apply (run_isupper_routing ascii_only (answering no_filings) (tool "key")
             (lit "10-K") None ∅ []).
    + unfold len. simpl. lia.
    + exists 75%N. split; [| reflexivity].
      do 3 right. left.
    + intros c Hc. simpl in Hc.
      repeat (apply elem_of_cons in Hc as [-> | Hc]);
        [discriminate | discriminate | discriminate | reflexivity |
         inversion Hc].
  - apply (run_isupper_routing ascii_only (answering no_filings) (tool "key")
             (lit "A1") None ∅ []).
    + unfold len. simpl. lia.
    + exists 65%N. split; [left | reflexivity].
    + intros c Hc. simpl in Hc.
      repeat (apply elem_of_cons in Hc as [-> | Hc]);
        [reflexivity | discriminate | inversion Hc].
Defined.

(** A failing client call on [TSLA] and on a keyword query. *)
Lemma run_wraps_exception_samples :
  fst
    (_run ascii_only (failing (ExceptionInstance ConnectionError))
       (tool "key") (lit "TSLA") None ∅ [])
  = Throw (ToolException (lit "Error searching filings: API Error"))
  /\ fst
       (_run ascii_only (failing (ExceptionInstance ConnectionError))
          (tool "key") (lit "artificial intelligence") None ∅ [])
     = Throw (ToolException (lit "Error searching text: API Error")).
Proof.
  split.
  - apply (run_wraps_exception ascii_only
             (failing (ExceptionInstance ConnectionError)) (tool "key")
             (lit "TSLA") None ∅ []
             (CustomSECAPI.Call (api_wrapper (tool "key"))
                CustomSECAPI.get_filings
                {[ "ticker" := Str (lit "TSLA"); "limit" := Int 5 ]})
             ConnectionError); reflexivity.
  - apply (run_wraps_exception ascii_only
             (failing (ExceptionInstance ConnectionError)) (tool "key")
             (lit "artificial intelligence") None ∅ []
             (CustomSECAPI.Call (api_wrapper (tool "key"))
                CustomSECAPI.full_text_search
                {[ "search_query" := Str (lit "artificial intelligence");
                   "limit" := Int 5 ]})
             ConnectionError); reflexivity.
Defined.

(** A failing client under both operations with explicit parameters. *)
Lemma explicit_search_wraps_exception_sample :
  fst
    (filing_search (failing (ExceptionInstance ConnectionError))
       (tool "key") (lit "AAPL") omitted omitted omitted omitted [])
  = Throw (ValueError (lit "Error in filing search: API Error"))
  /\ fst
       (full_text_search (failing (ExceptionInstance ConnectionError))
          (tool "key") (lit "artificial intelligence")
          omitted omitted omitted omitted [])
     = Throw (ValueError (lit "Error in full text search: API Error")).
Proof.
  destruct
    (explicit_search_wraps_exception
       (failing (ExceptionInstance ConnectionError)) (tool "key")
       (lit "AAPL") (lit "artificial intelligence")
       omitted omitted omitted omitted omitted [])
    as [Hfiling Htext].
  split.
  - eapply (Hfiling _ ConnectionError); reflexivity.
  - eapply (Htext _ ConnectionError); reflexivity.
Defined.

(** A failing [get_filings] on [TSLA]: one call, no second attempt. *)
Lemma run_single_call_TSLA :
  (length
     (calls_of
        (_run ascii_only (failing (ExceptionInstance ConnectionError))
           (tool "key") (lit "TSLA") None ∅) []) <= 1)%nat
  /\ fst
       (_run ascii_only (failing (ExceptionInstance ConnectionError))
          (tool "key") (lit "TSLA") None ∅ [])
     = Throw (ToolException (lit "Error searching filings: API Error"))
  /\ (forall c,
        c ∈ calls_of
              (_run ascii_only (failing (ExceptionInstance ConnectionError))
                 (tool "key") (lit "TSLA") None ∅) [] ->
        CustomSECAPI.meth c <> CustomSECAPI.full_text_search).
Proof.
  destruct
    (run_single_call ascii_only
       (failing (ExceptionInstance ConnectionError)) (tool "key")
       (lit "TSLA") None ∅ [])
    as [Hone Hraise].
  split; [exact Hone |].
  exact (Hraise ConnectionError eq_refl eq_refl).
Defined.

(** An explicit key wins over the key the framework has configured. *)
Lemma init_explicit_key_sample :
  exists t,
    __init__ (preconfigured (lit "configured-key"))
      (passed (Some (lit "explicit-key"))) ∅
    = Returned t
    /\ api_wrapper t
       = CustomSECAPI.CustomSECAPI_
           (CustomSECAPI.SecretStr_ (lit "explicit-key")).
Proof.
  apply (init_explicit_key (preconfigured (lit "configured-key"))
           (lit "explicit-key") ∅ (lit "configured-key")).
  - discriminate.
  - reflexivity.
Defined.

End Samples.

(* ===================================================================== *)
(** ** What each operation hands back *)
(* ===================================================================== *)

Section Outcomes.
Import Py Eff SECAPITool.

Context {Result : Type}.
Variable ucd : N -> case_class.
Variable client :
  list CustomSECAPI.call -> CustomSECAPI.call -> outcome Result.

(** A guarded call ends by [return] exactly when the client returned, with
    the client's value, and never runs off its end. *)
Lemma guarded_outcome (o : outcome Result) (wrap : str -> raised)
    (prefix : str) :
  match o with
  | Returned d => Return d
  | Raised x => Throw (rewrap wrap prefix x)
  end <> Next
  /\ (forall d,
        match o with
        | Returned d' => Return d'
        | Raised x => Throw (rewrap wrap prefix x)
        end = Return d <-> o = Returned d).
Proof.
  destruct o as [d' | x]; split; try discriminate; intros d; split;
    intros H; try discriminate; now injection H as ->.
Qed.

(** X1. Whatever the query, [_run] makes one client call and returns a
    mapping exactly when that call returned it; it never ends without a
    [return] or a [raise], so it never gives [None]. *)
Theorem run_returns_what_client_returns (self : SECAPITool.t) (q : str)
    (run_manager : option unit) (kwargs : gmap string value) (h : log) :
  exists c,
    calls_of (_run ucd client self q run_manager kwargs) h = [c]
    /\ fst (_run ucd client self q run_manager kwargs h) <> Next
    /\ (forall d,
          fst (_run ucd client self q run_manager kwargs h) = Return d
          <-> client h c = Returned d).
Proof.
  pose proof (run_log ucd client self q run_manager kwargs h) as Hrun.
  eexists. split; [exact (calls_of_one _ _ _ _ Hrun) |].
  rewrite Hrun. simpl. apply guarded_outcome.
Qed.

(** X2. [filing_search] and [full_text_search], with any arguments, make
    one client call each, to [get_filings] and to the client's
    [full_text_search], and return a mapping exactly when that call
    returned it; neither ends without a [return] or a [raise]. *)
Theorem explicit_search_returns_what_client_returns (self : SECAPITool.t)
    (ticker query : str) (form_type : arg (option str))
    (form_types : arg (option (list str)))
    (date_from date_to : arg (option str)) (limit : arg Z) (h : log) :
  (exists c,
     calls_of
       (filing_search client self ticker form_type date_from date_to limit) h
     = [c]
     /\ CustomSECAPI.meth c = CustomSECAPI.get_filings
     /\ fst
          (filing_search client self ticker form_type date_from date_to
             limit h) <> Next
     /\ (forall d,
           fst
             (filing_search client self ticker form_type date_from date_to
                limit h) = Return d
           <-> client h c = Returned d))
  /\ (exists c,
        calls_of
          (full_text_search client self query form_types date_from date_to
             limit) h
        = [c]
        /\ CustomSECAPI.meth c = CustomSECAPI.full_text_search
        /\ fst
             (full_text_search client self query form_types date_from
                date_to limit h) <> Next
        /\ (forall d,
              fst
                (full_text_search client self query form_types date_from
                   date_to limit h) = Return d
              <-> client h c = Returned d)).
Proof.
  split.
  - pose proof
      (filing_search_run client self ticker form_type date_from date_to
         limit h) as Hrun.
    eexists. split; [exact (calls_of_one _ _ _ _ Hrun) |].
    split; [reflexivity |].
    rewrite Hrun. simpl. apply guarded_outcome.
  - pose proof
      (full_text_search_run client self query form_types date_from date_to
         limit h) as Hrun.
    eexists. split; [exact (calls_of_one _ _ _ _ Hrun) |].
    split; [reflexivity |].
    rewrite Hrun. simpl. apply guarded_outcome.
Qed.

(** X4. An exception outside [Exception] raised by the client call leaves
    [filing_search] and [full_text_search] as it is, not as a
    [ValueError]. *)
Theorem explicit_search_passes_system_exit (self : SECAPITool.t)
    (ticker query : str) (form_type : arg (option str))
    (form_types : arg (option (list str)))
    (date_from date_to : arg (option str)) (limit : arg Z) (h : log) :
  (forall c cls,
     calls_of
       (filing_search client self ticker form_type date_from date_to limit) h
     = [c] ->
     client h c = Raised (SystemExiting cls) ->
     fst (filing_search client self ticker form_type date_from date_to limit h)
     = Throw (SystemExiting cls))
  /\ (forall c cls,
        calls_of
          (full_text_search client self query form_types date_from date_to
             limit) h
        = [c] ->
        client h c = Raised (SystemExiting cls) ->
        fst
          (full_text_search client self query form_types date_from date_to
             limit h)
        = Throw (SystemExiting cls)).
Proof.
  split; intros c cls Hcalls Hraise.
  - pose proof
      (filing_search_run client self ticker form_type date_from date_to
         limit h) as Hrun.
    rewrite (calls_of_one _ _ _ _ Hrun) in Hcalls.
    injection Hcalls as Hc. rewrite Hrun, Hc, Hraise. reflexivity.
  - pose proof
      (full_text_search_run client self query form_types date_from date_to
         limit h) as Hrun.
    rewrite (calls_of_one _ _ _ _ Hrun) in Hcalls.
    injection Hcalls as Hc. rewrite Hrun, Hc, Hraise. reflexivity.
Qed.

End Outcomes.

(* ===================================================================== *)
(** ** The keyword arguments the client sees *)
(* ===================================================================== *)

Section Keywords.
Import Py Eff SECAPITool.

Context {Result : Type}.
Variable ucd : N -> case_class.
Variable client :
  list CustomSECAPI.call -> CustomSECAPI.call -> outcome Result.

(** X5. The call [_run] makes carries two keyword arguments and no more:
    the query, under [ticker] or [search_query], and [limit], which is 5
    whatever extra keyword arguments [_run] itself was given. No form type
    and no date bound reaches the client through [_run]. *)
Theorem run_keyword_arguments (self : SECAPITool.t) (q : str)
    (run_manager : option unit) (kwargs : gmap string value) (h : log) :
  exists c,
    calls_of (_run ucd client self q run_manager kwargs) h = [c]
    /\ CustomSECAPI.kwargs c !! "limit" = Some (Int 5)
    /\ (dom (CustomSECAPI.kwargs c) = ({[ "ticker"; "limit" ]} : gset string)
        /\ CustomSECAPI.kwargs c !! "ticker" = Some (Str q)
        \/ dom (CustomSECAPI.kwargs c)
           = ({[ "search_query"; "limit" ]} : gset string)
           /\ CustomSECAPI.kwargs c !! "search_query" = Some (Str q))
    /\ (forall k,
          k ∈ ["form_type"; "form_types"; "date_from"; "date_to"] ->
          CustomSECAPI.kwargs c !! k = None).
Proof.
  pose proof (run_log ucd client self q run_manager kwargs h) as Hrun.
  eexists. split; [exact (calls_of_one _ _ _ _ Hrun) |].
  destruct (isupper ucd q && (len q <=? 5)); simpl.
  - split; [by simplify_map_eq |]. split.
    + left. split; [| by simplify_map_eq].
      rewrite dom_insert_L, dom_singleton_L. reflexivity.
    + intros k Hk.
      repeat (apply elem_of_cons in Hk as [-> | Hk]);
        [by simplify_map_eq .. | inversion Hk].
  - split; [by simplify_map_eq |]. split.
    + right. split; [| by simplify_map_eq].
      rewrite dom_insert_L, dom_singleton_L. reflexivity.
    + intros k Hk.
      repeat (apply elem_of_cons in Hk as [-> | Hk]);
        [by simplify_map_eq .. | inversion Hk].
Qed.

(** X6. [filing_search] and [full_text_search] always pass five keyword
    arguments, whichever of their optional arguments were given: an
    omitted one reaches the client as an explicit [None] (50 for [limit]),
    never as a missing keyword. *)
Theorem explicit_search_keyword_arguments (self : SECAPITool.t)
    (ticker query : str) (form_type : arg (option str))
    (form_types : arg (option (list str)))
    (date_from date_to : arg (option str)) (limit : arg Z) (h : log) :
  (exists c,
     calls_of
       (filing_search client self ticker form_type date_from date_to limit) h
     = [c]
     /\ dom (CustomSECAPI.kwargs c)
        = ({[ "ticker"; "form_type"; "date_from"; "date_to"; "limit" ]}
           : gset string)
     /\ (form_type = omitted ->
         CustomSECAPI.kwargs c !! "form_type" = Some None_)
     /\ (date_from = omitted ->
         CustomSECAPI.kwargs c !! "date_from" = Some None_)
     /\ (date_to = omitted ->
         CustomSECAPI.kwargs c !! "date_to" = Some None_)
     /\ (limit = omitted ->
         CustomSECAPI.kwargs c !! "limit" = Some (Int 50)))
  /\ (exists c,
        calls_of
          (full_text_search client self query form_types date_from date_to
             limit) h
        = [c]
        /\ dom (CustomSECAPI.kwargs c)
           = ({[ "search_query"; "form_types"; "date_from"; "date_to";
                 "limit" ]} : gset string)
        /\ (form_types = omitted ->
            CustomSECAPI.kwargs c !! "form_types" = Some None_)
        /\ (date_from = omitted ->
            CustomSECAPI.kwargs c !! "date_from" = Some None_)
        /\ (date_to = omitted ->
            CustomSECAPI.kwargs c !! "date_to" = Some None_)
        /\ (limit = omitted ->
            CustomSECAPI.kwargs c !! "limit" = Some (Int 50))).
Proof.
  split.
  - pose proof
      (filing_search_run client self ticker form_type date_from date_to
         limit h) as Hrun.
    eexists. split; [exact (calls_of_one _ _ _ _ Hrun) |]. simpl.
    split; [rewrite !dom_insert_L, dom_singleton_L; reflexivity |].
    repeat split; intros ->; by simplify_map_eq.
  - pose proof
      (full_text_search_run client self query form_types date_from date_to
         limit h) as Hrun.
    eexists. split; [exact (calls_of_one _ _ _ _ Hrun) |]. simpl.
    split; [rewrite !dom_insert_L, dom_singleton_L; reflexivity |].
    repeat split; intros ->; by simplify_map_eq.
Qed.

End Keywords.

(* ===================================================================== *)
(** ** The routing decision, character by character *)
(* ===================================================================== *)

Section Decision.
Import Py Eff SECAPITool.

Context {Result : Type}.
Variable ucd : N -> case_class.
Variable client :
  list CustomSECAPI.call -> CustomSECAPI.call -> outcome Result.

(** [isupper] in terms of single characters: an uppercase one occurs, and
    no lowercase or titlecase one does. *)
Lemma isupper_chars (s : str) :
  isupper ucd s = true <->
  (exists ch, ch ∈ s /\ ISUPPER ucd ch = true)
  /\ (forall ch, ch ∈ s -> ISLOWER ucd ch || ISTITLE ucd ch = false).
Proof.
  rewrite isupper_is_scan, isupper_scan_true, Forall_forall, Exists_exists.
  split.
  - intros [Hall [Hf | Hsome]]; [discriminate | split; assumption].
  - intros [Hsome Hall]. split; [assumption | now right].
Qed.

(** X10. The one call [_run] makes goes to [get_filings] if and only if
    the query has at most 5 characters, has an uppercase character and has
    no lowercase or titlecase character; in every other case it goes to
    [full_text_search]. Neither the tool, the client nor the calls made
    before have a say. *)
Theorem run_routing_decision (self : SECAPITool.t) (q : str)
    (run_manager : option unit) (kwargs : gmap string value) (h : log) :
  exists c,
    calls_of (_run ucd client self q run_manager kwargs) h = [c]
    /\ (CustomSECAPI.meth c = CustomSECAPI.get_filings
        <-> len q <= 5
            /\ (exists ch, ch ∈ q /\ ISUPPER ucd ch = true)
            /\ (forall ch,
                  ch ∈ q -> ISLOWER ucd ch || ISTITLE ucd ch = false))
    /\ (CustomSECAPI.meth c <> CustomSECAPI.get_filings
        -> CustomSECAPI.meth c = CustomSECAPI.full_text_search).
Proof.
  pose proof (run_log ucd client self q run_manager kwargs h) as Hrun.
  eexists. split; [exact (calls_of_one _ _ _ _ Hrun) |].
  destruct (isupper ucd q && (len q <=? 5)) eqn:Hcond; simpl.
  - apply andb_true_iff in Hcond as [Hup Hlen].
    apply isupper_chars in Hup. apply Z.leb_le in Hlen.
    split; [| congruence].
    split; [intros _; split; assumption | reflexivity].
  - split; [| reflexivity].
    split; [discriminate |].
    intros [Hlen Hchars].
    apply isupper_chars in Hchars. apply Z.leb_le in Hlen.
    rewrite Hchars, Hlen in Hcond. discriminate.
Qed.

End Decision.

(* ===================================================================== *)
(** ** More on construction *)
(* ===================================================================== *)

Section Credential.
Import Py Eff SECAPITool.

Context {Result : Type}.
Variable ucd : N -> case_class.
Variable client :
  list CustomSECAPI.call -> CustomSECAPI.call -> outcome Result.
Variable BaseTool__init__ : option str -> gmap string value -> outcome str.

(** X7. Constructed with no [api_key] argument, with [None] or with the
    empty string, the tool binds its client wrapper to the key the
    framework's constructor has left in the field [api_key]. *)
Theorem init_falsy_key_falls_back (api_key : arg (option str))
    (kwargs : gmap string value) (stored : str) :
  api_key = omitted \/ api_key = passed None \/ api_key = passed (Some []) ->
  BaseTool__init__ (arg_default None api_key) kwargs = Returned stored ->
  __init__ BaseTool__init__ api_key kwargs
  = Returned
      {| SECAPITool.api_key := stored;
         _api_wrapper :=
           CustomSECAPI.CustomSECAPI_ (CustomSECAPI.SecretStr_ stored) |}.
Proof.
  intros Hfalsy Hbase. unfold __init__. rewrite Hbase.
  destruct Hfalsy as [-> | [-> | ->]]; reflexivity.
Qed.

(** X8. The constructor has no handler of its own: it raises exactly what
    the framework's constructor raises, unchanged, and when it returns a
    tool the field [api_key] of that tool is what the framework's
    constructor stored. *)
Theorem init_follows_base (api_key : arg (option str))
    (kwargs : gmap string value) :
  (forall x,
     __init__ BaseTool__init__ api_key kwargs = Raised x
     <-> BaseTool__init__ (arg_default None api_key) kwargs = Raised x)
  /\ (forall tool,
        __init__ BaseTool__init__ api_key kwargs = Returned tool ->
        BaseTool__init__ (arg_default None api_key) kwargs
        = Returned (SECAPITool.api_key tool)).
Proof.
  unfold __init__.
  destruct (BaseTool__init__ (arg_default None api_key) kwargs)
    as [stored | y].
  - split.
    + intros x. split; discriminate.
    + intros tool Htool. injection Htool as <-. reflexivity.
  - split.
    + intros x. split; intros H; injection H as ->; reflexivity.
    + intros tool Htool. discriminate.
Qed.

(** X9. A tool constructed with a non-empty [api_key] argument makes every
    client call, from [_run], [filing_search] and [full_text_search] alike,
    on the wrapper bound to that key. *)
Theorem constructed_tool_calls_with_key (k : str)
    (init_kwargs : gmap string value) (tool : SECAPITool.t)
    (q ticker query : str) (run_manager : option unit)
    (kwargs : gmap string value) (form_type : arg (option str))
    (form_types : arg (option (list str)))
    (date_from date_to : arg (option str)) (limit : arg Z) (h : log) :
  k <> [] ->
  __init__ BaseTool__init__ (passed (Some k)) init_kwargs = Returned tool ->
  Forall
    (fun c =>
       CustomSECAPI.receiver c
       = CustomSECAPI.CustomSECAPI_ (CustomSECAPI.SecretStr_ k))
    (calls_of (_run ucd client tool q run_manager kwargs) h
     ++ calls_of
          (filing_search client tool ticker form_type date_from date_to
             limit) h
     ++ calls_of
          (full_text_search client tool query form_types date_from date_to
             limit) h).
Proof.
  intros Hk Hinit.
  assert (Hw : api_wrapper tool
               = CustomSECAPI.CustomSECAPI_ (CustomSECAPI.SecretStr_ k)).
  { unfold __init__ in Hinit. simpl in Hinit.
    destruct (BaseTool__init__ (Some k) init_kwargs) as [stored | x];
      [| discriminate].
    injection Hinit as <-. unfold api_wrapper. simpl.
    destruct k as [| ch rest]; [congruence | reflexivity]. }
  rewrite (calls_of_one _ _ _ _
             (run_log ucd client tool q run_manager kwargs h)).
  rewrite (calls_of_one _ _ _ _
             (filing_search_run client tool ticker form_type date_from
                date_to limit h)).
  rewrite (calls_of_one _ _ _ _
             (full_text_search_run client tool query form_types date_from
                date_to limit h)).
  simpl. repeat constructor; try exact Hw.
  destruct (isupper ucd q && (len q <=? 5)); exact Hw.
Qed.

End Credential.

(* ===================================================================== *)
(** ** Forwarding, argument by argument *)
(* ===================================================================== *)

Section Forwarding.
Import Py Eff SECAPITool.

Context {Result : Type}.
Variable client :
  list CustomSECAPI.call -> CustomSECAPI.call -> outcome Result.

(** X11. Each argument of [filing_search] and [full_text_search] is passed
    on by itself: whatever the other arguments, one that was given reaches
    the client under its keyword with the value given. The [query] of
    [full_text_search] travels under the keyword [search_query]. *)
Theorem explicit_search_forwards_each (self : SECAPITool.t)
    (ticker query : str) (form_type : arg (option str))
    (form_types : arg (option (list str)))
    (date_from date_to : arg (option str)) (limit : arg Z) (h : log) :
  (exists c,
     calls_of
       (filing_search client self ticker form_type date_from date_to limit) h
     = [c]
     /\ CustomSECAPI.kwargs c !! "ticker" = Some (Str ticker)
     /\ (forall v, form_type = passed v ->
          CustomSECAPI.kwargs c !! "form_type" = Some (of_optional_str v))
     /\ (forall v, date_from = passed v ->
          CustomSECAPI.kwargs c !! "date_from" = Some (of_optional_str v))
     /\ (forall v, date_to = passed v ->
          CustomSECAPI.kwargs c !! "date_to" = Some (of_optional_str v))
     /\ (forall n, limit = passed n ->
          CustomSECAPI.kwargs c !! "limit" = Some (Int n)))
  /\ (exists c,
        calls_of
          (full_text_search client self query form_types date_from date_to
             limit) h
        = [c]
        /\ CustomSECAPI.kwargs c !! "search_query" = Some (Str query)
        /\ CustomSECAPI.kwargs c !! "query" = None
        /\ (forall v, form_types = passed v ->
             CustomSECAPI.kwargs c !! "form_types"
             = Some (of_optional_list v))
        /\ (forall v, date_from = passed v ->
             CustomSECAPI.kwargs c !! "date_from" = Some (of_optional_str v))
        /\ (forall v, date_to = passed v ->
             CustomSECAPI.kwargs c !! "date_to" = Some (of_optional_str v))
        /\ (forall n, limit = passed n ->
             CustomSECAPI.kwargs c !! "limit" = Some (Int n))).
Proof.
  split.
  - pose proof
      (filing_search_run client self ticker form_type date_from date_to
         limit h) as Hrun.
    eexists. split; [exact (calls_of_one _ _ _ _ Hrun) |]. simpl.
    split; [by simplify_map_eq |].
    repeat split; intros v ->; by simplify_map_eq.
  - pose proof
      (full_text_search_run client self query form_types date_from date_to
         limit h) as Hrun.
    eexists. split; [exact (calls_of_one _ _ _ _ Hrun) |]. simpl.
    split; [by simplify_map_eq |]. split; [by simplify_map_eq |].
    repeat split; intros v ->; by simplify_map_eq.
Qed.

End Forwarding.

(* ===================================================================== *)
(** ** More sample runs *)
(* ===================================================================== *)

Section MoreSamples.
Import Py Eff SECAPITool Sample.

(** A keyboard interrupt during the client call leaves [_run] unwrapped,
    on either branch. *)
Lemma run_system_exit_samples :
  fst
    (_run ascii_only (failing (SystemExiting "KeyboardInterrupt"))
       (tool "key") (lit "TSLA") None ∅ [])
  = Throw (SystemExiting "KeyboardInterrupt")
  /\ fst
       (_run ascii_only (failing (SystemExiting "KeyboardInterrupt"))
          (tool "key") (lit "artificial intelligence") None ∅ [])
     = Throw (SystemExiting "KeyboardInterrupt").
Proof.
  split.
  - apply (run_system_exit ascii_only
             (failing (SystemExiting "KeyboardInterrupt")) (tool "key")
             (lit "TSLA") None ∅ []
             (CustomSECAPI.Call (api_wrapper (tool "key"))
                CustomSECAPI.get_filings
                {[ "ticker" := Str (lit "TSLA"); "limit" := Int 5 ]})
             "KeyboardInterrupt"); reflexivity.
  - apply (run_system_exit ascii_only
             (failing (SystemExiting "KeyboardInterrupt")) (tool "key")
             (lit "artificial intelligence") None ∅ []
             (CustomSECAPI.Call (api_wrapper (tool "key"))
                CustomSECAPI.full_text_search
                {[ "search_query" := Str (lit "artificial intelligence");
                   "limit" := Int 5 ]})
             "KeyboardInterrupt"); reflexivity.
Defined.

(** The same under both operations with explicit parameters. *)
Lemma explicit_search_passes_system_exit_sample :
  fst
    (filing_search (failing (SystemExiting "SystemExit")) (tool "key")
       (lit "AAPL") omitted omitted omitted omitted [])
  = Throw (SystemExiting "SystemExit")
  /\ fst
       (full_text_search (failing (SystemExiting "SystemExit")) (tool "key")
          (lit "artificial intelligence") omitted omitted omitted omitted [])
     = Throw (SystemExiting "SystemExit").
Proof.
  destruct
    (explicit_search_passes_system_exit
       (failing (SystemExiting "SystemExit")) (tool "key")
       (lit "AAPL") (lit "artificial intelligence")
       omitted omitted omitted omitted omitted [])
    as [Hfiling Htext].
  split.
  - eapply (Hfiling _ "SystemExit"); reflexivity.
  - eapply (Htext _ "SystemExit"); reflexivity.
Defined.

(** An empty explicit key does not win: the configured key is bound. *)
Lemma init_falsy_key_falls_back_sample :
  __init__ (preconfigured (lit "configured-key")) (passed (Some [])) ∅
  = Returned
      {| SECAPITool.api_key := lit "configured-key";
         _api_wrapper :=
           CustomSECAPI.CustomSECAPI_
             (CustomSECAPI.SecretStr_ (lit "configured-key")) |}.
Proof.
  apply (init_falsy_key_falls_back (preconfigured (lit "configured-key"))
           (passed (Some [])) ∅ (lit "configured-key")).
  - right. right. reflexivity.
  - reflexivity.
Defined.

(** A tool constructed with an explicit key, then used three ways. *)
Lemma constructed_tool_calls_with_key_sample :
  Forall
    (fun c =>
       CustomSECAPI.receiver c
       = CustomSECAPI.CustomSECAPI_
           (CustomSECAPI.SecretStr_ (lit "explicit-key")))
    (calls_of
       (_run ascii_only (answering no_filings)
          (SECAPITool_ (lit "configured-key")
             (CustomSECAPI.CustomSECAPI_
                (CustomSECAPI.SecretStr_ (lit "explicit-key"))))
          (lit "TSLA") None ∅) []
     ++ calls_of
          (filing_search (answering no_filings)
             (SECAPITool_ (lit "configured-key")
                (CustomSECAPI.CustomSECAPI_
                   (CustomSECAPI.SecretStr_ (lit "explicit-key"))))
             (lit "AAPL") omitted omitted omitted omitted) []
     ++ calls_of
          (full_text_search (answering no_filings)
             (SECAPITool_ (lit "configured-key")
                (CustomSECAPI.CustomSECAPI_
                   (CustomSECAPI.SecretStr_ (lit "explicit-key"))))
             (lit "artificial intelligence") omitted omitted omitted
             omitted) []).
Proof.
  apply (constructed_tool_calls_with_key ascii_only (answering no_filings)
           (preconfigured (lit "configured-key")) (lit "explicit-key") ∅).
  - discriminate.
  - reflexivity.
Defined.

End MoreSamples.
